(** * click-integration: the Click callback handler of [src/click.ts]

    A shallow embedding of the [ClickPayment] class (signature check,
    Prepare and Complete handlers, error formatter, dispatch) together
    with the properties of its behaviour.

    Conventions of the embedding:
    - a JavaScript [number] is an integer of [Z] or [NaN]; every numeric
      field of the protocol (transaction id, action, error code, amount in
      provider units) is integral;
    - a JavaScript string is a [string] of bytes (its UTF-8 encoding, the
      one [Hash.update] digests);
    - an [async] collaborator is a function of the merchant's world that
      settles: it is fulfilled with a value or rejected with an error; an
      [onFail] that is not [async] and throws at the call has a model of
      its own ([handleTransaction_sync]), which agrees with the first on
      every [onFail] that returns its promise;
    - [await]ed calls run in sequence, so a handler is a computation in a
      monad that threads the world, raises and catches errors, and records
      every collaborator invocation and every console line. *)

From Stdlib Require Import ZArith List String Ascii Bool Lia.
From Stdlib Require Import Decimal DecimalString DecimalPos.
Import ListNotations.
Local Open Scope string_scope.
Local Open Scope list_scope.
Local Open Scope Z_scope.

(* ===================================================================== *)
(** ** MD5 ([crypto.createHash('md5')], RFC 1321) *)
(* ===================================================================== *)

Module MD5.

Definition mask32 : Z := 0xffffffff.

Definition add32 (a b : Z) : Z := Z.land (a + b) mask32.

Definition not32 (a : Z) : Z := Z.lxor a mask32.

Definition rotl32 (x n : Z) : Z :=
Z.lor (Z.land (Z.shiftl x n) mask32) (Z.shiftr x (32 - n)).

(** [K i = floor (2^32 * |sin (i + 1)|)] *)
Definition K : list Z :=
[ 0xd76aa478; 0xe8c7b756; 0x242070db; 0xc1bdceee;
  0xf57c0faf; 0x4787c62a; 0xa8304613; 0xfd469501;
  0x698098d8; 0x8b44f7af; 0xffff5bb1; 0x895cd7be;
  0x6b901122; 0xfd987193; 0xa679438e; 0x49b40821;
  0xf61e2562; 0xc040b340; 0x265e5a51; 0xe9b6c7aa;
  0xd62f105d; 0x02441453; 0xd8a1e681; 0xe7d3fbc8;
  0x21e1cde6; 0xc33707d6; 0xf4d50d87; 0x455a14ed;
  0xa9e3e905; 0xfcefa3f8; 0x676f02d9; 0x8d2a4c8a;
  0xfffa3942; 0x8771f681; 0x6d9d6122; 0xfde5380c;
  0xa4beea44; 0x4bdecfa9; 0xf6bb4b60; 0xbebfbc70;
  0x289b7ec6; 0xeaa127fa; 0xd4ef3085; 0x04881d05;
  0xd9d4d039; 0xe6db99e5; 0x1fa27cf8; 0xc4ac5665;
  0xf4292244; 0x432aff97; 0xab9423a7; 0xfc93a039;
  0x655b59c3; 0x8f0ccc92; 0xffeff47d; 0x85845dd1;
  0x6fa87e4f; 0xfe2ce6e0; 0xa3014314; 0x4e0811a1;
  0xf7537e82; 0xbd3af235; 0x2ad7d2bb; 0xeb86d391 ].

(** per-round left rotations *)
Definition R : list Z :=
[ 7; 12; 17; 22; 7; 12; 17; 22; 7; 12; 17; 22; 7; 12; 17; 22;
  5;  9; 14; 20; 5;  9; 14; 20; 5;  9; 14; 20; 5;  9; 14; 20;
  4; 11; 16; 23; 4; 11; 16; 23; 4; 11; 16; 23; 4; 11; 16; 23;
  6; 10; 15; 21; 6; 10; 15; 21; 6; 10; 15; 21; 6; 10; 15; 21 ].

Definition bytes_of_string (s : string) : list Z :=
map (fun c => Z.of_N (N_of_ascii c)) (list_ascii_of_string s).

(** little-endian bytes of the low [8 * n] bits of [x] *)
Fixpoint le_bytes (n : nat) (x : Z) : list Z :=
match n with
| O => []
| S n' => Z.land x 0xff :: le_bytes n' (Z.shiftr x 8)
end.

Fixpoint le_word (bs : list Z) : Z :=
match bs with
| [] => 0
| b :: bs' => Z.lor b (Z.shiftl (le_word bs') 8)
end.

(** the message, a [0x80] byte, zeros up to 56 mod 64, the bit length on
  eight little-endian bytes *)
Definition pad (msg : list Z) : list Z :=
let len := Z.of_nat (List.length msg) in
msg ++ [0x80] ++ repeat 0 (Z.to_nat ((55 - len) mod 64))
    ++ le_bytes 8 (8 * len).

(** cut a list into pieces of [n] elements, [k] pieces at most *)
Fixpoint chunks {A} (k n : nat) (l : list A) : list (list A) :=
match k, l with
| O, _ | _, [] => []
| S k', _ => firstn n l :: chunks k' n (skipn n l)
end.

Definition words_of_block (block : list Z) : list Z :=
map le_word (chunks 16 4 block).

Definition Digest : Type := Z * Z * Z * Z.

Definition init : Digest := (0x67452301, 0xefcdab89, 0x98badcfe, 0x10325476).

Definition step (M : list Z) (st : Digest) (i : nat) : Digest :=
let '(a, b, c, d) := st in
let iz := Z.of_nat i in
let '(f, g) :=
  if iz <? 16 then (Z.lor (Z.land b c) (Z.land (not32 b) d), iz)
  else if iz <? 32 then
    (Z.lor (Z.land d b) (Z.land (not32 d) c), (5 * iz + 1) mod 16)
  else if iz <? 48 then (Z.lxor b (Z.lxor c d), (3 * iz + 5) mod 16)
  else (Z.lxor c (Z.lor b (not32 d)), (7 * iz) mod 16) in
let f' := add32 (add32 (add32 f a) (nth i K 0)) (nth (Z.to_nat g) M 0) in
(d, add32 b (rotl32 f' (nth i R 0)), b, c).

Definition process_block (st : Digest) (block : list Z) : Digest :=
let '(a0, b0, c0, d0) := st in
let '(a, b, c, d) := fold_left (step (words_of_block block)) (seq 0 64) st in
(add32 a0 a, add32 b0 b, add32 c0 c, add32 d0 d).

Definition digest (msg : list Z) : list Z :=
let p := pad msg in
let '(a, b, c, d) :=
  fold_left process_block (chunks (List.length p) 64 p) init in
le_bytes 4 a ++ le_bytes 4 b ++ le_bytes 4 c ++ le_bytes 4 d.

Definition hex_digit (n : Z) : ascii :=
nth (Z.to_nat n) (list_ascii_of_string "0123456789abcdef") "0"%char.

Fixpoint hex (bs : list Z) : string :=
match bs with
| [] => ""
| b :: bs' =>
    String (hex_digit (Z.shiftr b 4))
      (String (hex_digit (Z.land b 0xf)) (hex bs'))
end.

(** [createHash('md5').update(s).digest('hex')] *)
Definition md5_hex (s : string) : string := hex (digest (bytes_of_string s)).

End MD5.

(* ===================================================================== *)
(** ** JavaScript values used by the handler *)
(* ===================================================================== *)

(** [number]: an integer or [NaN] *)
Inductive number : Type :=
  | Num (z : Z)
  | NaN.

(** [Number::toString], as [Array.prototype.join] applies it *)
Definition number_toString (n : number) : string :=
  match n with
  | Num z => NilZero.string_of_int (Z.to_int z)
  | NaN => "NaN"
  end.

(** [a === b] on numbers: [NaN] is equal to nothing *)
Definition strict_eq (a b : number) : bool :=
  match a, b with
  | Num x, Num y => x =? y
  | _, _ => false
  end.

(** [a > b] on numbers: false as soon as one side is [NaN] *)
Definition gt (a b : number) : bool :=
  match a, b with
  | Num x, Num y => y <? x
  | _, _ => false
  end.

(** [ToBoolean] on an optional number: [undefined], [0] and [NaN] are falsy *)
Definition truthy (v : option number) : bool :=
  match v with
  | Some (Num z) => negb (z =? 0)
  | Some NaN => false
  | None => false
  end.

(** [a !== b] where [a] may be [undefined] and [b] is a number *)
Definition strict_neq (a : option number) (b : number) : bool :=
  match a with
  | Some x => negb (strict_eq x b)
  | None => true
  end.

(** the values stored in the [md5Params] object *)
Inductive JsValue : Type :=
  | VNum (n : number)
  | VStr (s : string)
  | VUndefined.

(** an object with string keys: its own properties in insertion order *)
Definition JsObject : Type := list (string * JsValue).

(** [o[k] = v]: an existing key keeps its place, a new key goes last *)
Fixpoint set_prop (o : JsObject) (k : string) (v : JsValue) : JsObject :=
  match o with
  | [] => [(k, v)]
  | (k', v') :: o' =>
      if String.eqb k' k then (k, v) :: o' else (k', v') :: set_prop o' k v
  end.

Definition Object_values (o : JsObject) : list JsValue := map snd o.

(** the text [join] gives an element: [undefined] is the empty string *)
Definition join_text (v : JsValue) : string :=
  match v with
  | VNum n => number_toString n
  | VStr s => s
  | VUndefined => ""
  end.

(** [vs.join(sep)] *)
Definition join (sep : string) (vs : list JsValue) : string :=
  String.concat sep (map join_text vs).

(** *** [parseInt(s)] with no radix *)

Definition code (c : ascii) : Z := Z.of_N (N_of_ascii c).

(** white space of one byte: TAB, LF, VT, FF, CR, SP *)
Definition ws1 (c : ascii) : bool :=
  let n := code c in ((9 <=? n) && (n <=? 13)) || (n =? 32).

(** U+00A0 in UTF-8 *)
Definition ws2 (c1 c2 : ascii) : bool :=
  (code c1 =? 0xC2) && (code c2 =? 0xA0).

(** U+1680, U+2000..U+200A, U+2028, U+2029, U+202F, U+205F, U+3000 and
    U+FEFF in UTF-8 *)
Definition ws3 (c1 c2 c3 : ascii) : bool :=
  let a := code c1 in
  let b := code c2 in
  let c := code c3 in
  ((a =? 0xE1) && (b =? 0x9A) && (c =? 0x80))
  || ((a =? 0xE2) && (b =? 0x80)
      && (((0x80 <=? c) && (c <=? 0x8A)) || (c =? 0xA8) || (c =? 0xA9)
          || (c =? 0xAF)))
  || ((a =? 0xE2) && (b =? 0x81) && (c =? 0x9F))
  || ((a =? 0xE3) && (b =? 0x80) && (c =? 0x80))
  || ((a =? 0xEF) && (b =? 0xBB) && (c =? 0xBF)).

Fixpoint trimStart (s : string) : string :=
  match s with
  | EmptyString => s
  | String c1 s1 =>
      if ws1 c1 then trimStart s1
      else
        match s1 with
        | EmptyString => s
        | String c2 s2 =>
            if ws2 c1 c2 then trimStart s2
            else
              match s2 with
              | EmptyString => s
              | String c3 s3 => if ws3 c1 c2 c3 then trimStart s3 else s
              end
        end
  end.

(** the value of [c] as a digit of the radix, if it is one *)
Definition digit_of (radix : Z) (c : ascii) : option Z :=
  let n := code c in
  let d :=
    if (48 <=? n) && (n <=? 57) then n - 48
    else if (97 <=? n) && (n <=? 122) then n - 87
    else if (65 <=? n) && (n <=? 90) then n - 55
    else radix in
  if d <? radix then Some d else None.

(** the value of the longest prefix of digits; [acc] is [None] until a
    digit was read *)
Fixpoint digits (radix : Z) (s : string) (acc : option Z) : option Z :=
  match s with
  | EmptyString => acc
  | String c s' =>
      match digit_of radix c with
      | Some d =>
          digits radix s'
            (Some (radix * match acc with Some a => a | None => 0 end + d))
      | None => acc
      end
  end.

Definition parseInt (s : string) : number :=
  let s1 := trimStart s in
  let '(sign, s2) :=
    match s1 with
    | String "-" r => (-1, r)
    | String "+" r => (1, r)
    | _ => (1, s1)
    end in
  let '(radix, s3) :=
    match s2 with
    | String "0" (String "x" r) => (16, r)
    | String "0" (String "X" r) => (16, r)
    | _ => (10, s2)
    end in
  match digits radix s3 None with
  | Some v => Num (sign * v)
  | None => NaN
  end.

(* ===================================================================== *)
(** ** [src/types.ts] *)
(* ===================================================================== *)

Module ClickError.
Definition Success : number := Num 0.
Definition SignFailed : number := Num (-1).
Definition InvalidAmount : number := Num (-2).
Definition ActionNotFound : number := Num (-3).
Definition AlreadyPaid : number := Num (-4).
Definition UserNotFound : number := Num (-5).
Definition TransactionNotFound : number := Num (-6).
Definition TransactionCanceled : number := Num (-7).
End ClickError.

Module TransactionActions.
Definition Prepare : number := Num 0.
Definition Complete : number := Num 1.
End TransactionActions.

Record ClickRequestDTO : Type := {
  click_trans_id : number;
  service_id : string;
  click_paydoc_id : string;
  merchant_trans_id : string;
  merchant_prepare_id : string;
  amount : number;
  action : number;
  error : string;
  error_note : string;
  sign_time : string;
  sign_string : string;
  click_paydoc_type : string
}.

(** [merchant_prepare_id: string | number] of a response *)
Inductive PrepareId : Type :=
  | IdStr (s : string)
  | IdNum (n : number).

(** [ClickPrepareResponse | ClickCompleteResponse]: the object a handler
    returns; [merchant_prepare_id] is [None] when the key is absent *)
Module Response.
Record t : Type := {
  click_trans_id : number;
  merchant_trans_id : string;
  merchant_prepare_id : option PrepareId;
  error : number;
  error_note : string
}.
End Response.

(** what [checkOrder] resolves to: [{ exists: boolean; amount?: number }] *)
Module Order.
Record t : Type := {
  exists_ : bool;
  amount : option number
}.
End Order.

(** a thrown value or a rejection reason *)
Inductive JsError : Type :=
  | Error (message : string).

(** a settled promise *)
Inductive Settled (A : Type) : Type :=
  | Fulfilled (a : A)
  | Rejected (e : JsError).
Arguments Fulfilled {A} a.
Arguments Rejected {A} e.

(** the invocations of the collaborators, with the arguments passed *)
Inductive Call : Type :=
  | CheckOrder (orderId : string)
  | CheckPayment (orderId : string)
  | OnPrepare (click_trans_id : number) (merchant_trans_id : string)
      (amount : number)
  | OnSuccess (click_trans_id : number) (merchant_trans_id : string)
      (merchant_prepare_id : string)
  | OnFail (click_trans_id : number) (merchant_trans_id : string)
      (error : number) (error_note : string).

(** how an invocation ended *)
Inductive Outcome : Type :=
  | Returned
  | Threw (e : JsError).

(** what a run leaves behind, in order *)
Inductive Event : Type :=
  | Invoke (c : Call) (o : Outcome)
  | ConsoleError (label : string) (e : JsError).

(* ===================================================================== *)
(** ** Collaborators and the monad of the handlers *)
(* ===================================================================== *)

(** An [async] function of the merchant: from the world it finds, the way
    its promise settles and the world it leaves. Whatever the body of an
    [async] function throws rejects the promise it returns; the call
    itself never raises. *)
Definition Async (World A : Type) : Type := World -> Settled A * World.

(** [ClickConfig] *)
Record Validate (World : Type) : Type := {
  checkOrder : string -> Async World Order.t;
  checkPayment : option (string -> Async World bool)
}.

Record Handle (World : Type) : Type := {
  onPrepare : number -> string -> number -> Async World PrepareId;
  onSuccess : number -> string -> string -> Async World unit;
  onFail : option (number -> string -> number -> string -> Async World unit)
}.

Record ClickConfig (World : Type) : Type := {
  serviceId : string;
  merchantId : string;
  secretKey : string;
  returnUrl : option string;
  validate : Validate World;
  handle : Handle World
}.

Arguments checkOrder {World} _.
Arguments checkPayment {World} _.
Arguments onPrepare {World} _.
Arguments onSuccess {World} _.
Arguments onFail {World} _.
Arguments serviceId {World} _.
Arguments merchantId {World} _.
Arguments secretKey {World} _.
Arguments returnUrl {World} _.
Arguments validate {World} _.
Arguments handle {World} _.

(** A computation: from a world, a settled result, the world left and the
    events of the run. *)
Definition M (World A : Type) : Type :=
  World -> Settled A * World * list Event.

Section Monad.
Context {World : Type}.

Definition ret {A} (a : A) : M World A :=
  fun w => (Fulfilled a, w, []).

Definition bind {A B} (m : M World A) (k : A -> M World B) : M World B :=
  fun w =>
    match m w with
    | (Fulfilled a, w1, t1) =>
        let '(r, w2, t2) := k a w1 in (r, w2, t1 ++ t2)
    | (Rejected e, w1, t1) => (Rejected e, w1, t1)
    end.

(** [try { m } catch (error) { h error }] *)
Definition try_catch {A} (m : M World A) (h : JsError -> M World A)
  : M World A :=
  fun w =>
    match m w with
    | (Fulfilled a, w1, t1) => (Fulfilled a, w1, t1)
    | (Rejected e, w1, t1) =>
        let '(r, w2, t2) := h e w1 in (r, w2, t1 ++ t2)
    end.

Definition outcome_of {A} (r : Settled A) : Outcome :=
  match r with
  | Fulfilled _ => Returned
  | Rejected e => Threw e
  end.

(** [await f(...)]: the call is recorded, a rejection is raised *)
Definition await {A} (c : Call) (f : Async World A) : M World A :=
  fun w => let '(r, w1) := f w in (r, w1, [Invoke c (outcome_of r)]).

(** [console.error(label, error)] *)
Definition console_error (label : string) (e : JsError) : M World unit :=
  fun w => (Fulfilled tt, w, [ConsoleError label e]).

(** [f(...).catch(console.error)]: the call is recorded and not
    awaited; a rejection only reaches the console. Nothing of a handler
    runs after it but the construction of the response, so what [f] does
    to the world is placed at the call. *)
Definition detached (c : Call) (f : Async World unit) : M World unit :=
  fun w =>
    let '(r, w1) := f w in
    (Fulfilled tt, w1,
     Invoke c (outcome_of r)
       :: match r with
          | Fulfilled _ => []
          | Rejected e => [ConsoleError "" e]
          end).
End Monad.

Notation "x <- m ;; k" := (bind m (fun x => k))
  (at level 61, m at next level, right associativity).
Notation "m ;;; k" := (bind m (fun _ => k))
  (at level 61, right associativity).

(** the observations made on a run *)
Definition result {World A} (r : Settled A * World * list Event) : Settled A :=
  fst (fst r).
Definition world {World A} (r : Settled A * World * list Event) : World :=
  snd (fst r).
Definition trace {World A} (r : Settled A * World * list Event) : list Event :=
  snd r.

(** the invocations of a trace, in order *)
Fixpoint calls (t : list Event) : list Call :=
  match t with
  | [] => []
  | Invoke c _ :: t' => c :: calls t'
  | ConsoleError _ _ :: t' => calls t'
  end.

Definition is_checkOrder (c : Call) : bool :=
  match c with CheckOrder _ => true | _ => false end.
Definition is_checkPayment (c : Call) : bool :=
  match c with CheckPayment _ => true | _ => false end.
Definition is_onPrepare (c : Call) : bool :=
  match c with OnPrepare _ _ _ => true | _ => false end.
Definition is_onSuccess (c : Call) : bool :=
  match c with OnSuccess _ _ _ => true | _ => false end.

(** some invocation of the trace satisfies [p] *)
Definition invoked (p : Call -> bool) (t : list Event) : bool :=
  existsb p (calls t).

(** some invocation of the trace that satisfies [p] threw *)
Definition threw (p : Call -> bool) (t : list Event) : bool :=
  existsb
    (fun ev =>
       match ev with
       | Invoke c (Threw _) => p c
       | _ => false
       end) t.

(* ===================================================================== *)
(** ** [src/click.ts]: class [ClickPayment] *)
(* ===================================================================== *)

Section ClickPayment.
Context {World : Type}.
Variable config : ClickConfig World.

(** [generateMD5] *)
Definition generateMD5 (params : JsObject) : string :=
  let signString := join "" (Object_values params) in
  MD5.md5_hex signString.

(** the object literal of [validateSignString] *)
Definition md5Params_literal (data : ClickRequestDTO) : JsObject :=
  [ ("clickTransId", VNum (click_trans_id data));
    ("serviceId", VStr (service_id data));
    ("secretKey", VStr (secretKey config));
    ("merchantTransId", VStr (merchant_trans_id data));
    ("amount", VNum (amount data));
    ("action", VNum (action data));
    ("signTime", VStr (sign_time data)) ].

(** [validateSignString] *)
Definition validateSignString (data : ClickRequestDTO)
    (includesPrepareId : bool) : bool :=
  let md5Params := md5Params_literal data in
  let md5Params :=
    if includesPrepareId
    then set_prop md5Params "merchantPrepareId"
           (VStr (merchant_prepare_id data))
    else md5Params in
  let md5Hash := generateMD5 md5Params in
  String.eqb (sign_string data) md5Hash.

(** [createErrorResponse] *)
Definition createErrorResponse (error : number) (errorNote : string)
    (data : ClickRequestDTO) : M World Response.t :=
  match onFail (handle config) with
  | Some f =>
      detached
        (OnFail (click_trans_id data) (merchant_trans_id data)
           error errorNote)
        (f (click_trans_id data) (merchant_trans_id data) error errorNote)
  | None => ret tt
  end ;;;
  ret {| Response.click_trans_id := click_trans_id data;
         Response.merchant_trans_id := merchant_trans_id data;
         Response.merchant_prepare_id :=
           if strict_eq (action data) TransactionActions.Prepare
           then Some (IdStr "") else None;
         Response.error := error;
         Response.error_note := errorNote |}.

(** [prepare] *)
Definition prepare (data : ClickRequestDTO) : M World Response.t :=
  try_catch
    ((* 1. Validate sign string *)
     if negb (validateSignString data false)
     then createErrorResponse ClickError.SignFailed "Invalid sign_string"
            data
     else
       (* 2. Check if order exists and get amount *)
       order <- await (CheckOrder (merchant_trans_id data))
                  (checkOrder (validate config) (merchant_trans_id data)) ;;
       if negb (Order.exists_ order)
       then createErrorResponse ClickError.UserNotFound "Order not found"
              data
       else
         (* 3. Validate amount *)
         if truthy (Order.amount order)
            && strict_neq (Order.amount order) (amount data)
         then createErrorResponse ClickError.InvalidAmount "Invalid amount"
                data
         else
           (* 5. Save prepare info *)
           let save :=
             prepare_id <-
               await
                 (OnPrepare (click_trans_id data) (merchant_trans_id data)
                    (amount data))
                 (onPrepare (handle config) (click_trans_id data)
                    (merchant_trans_id data) (amount data)) ;;
             ret {| Response.click_trans_id := click_trans_id data;
                    Response.merchant_trans_id := merchant_trans_id data;
                    Response.merchant_prepare_id := Some prepare_id;
                    Response.error := ClickError.Success;
                    Response.error_note := "Success" |} in
           (* 4. Check if already paid *)
           match checkPayment (validate config) with
           | Some f =>
               isPaid <- await (CheckPayment (merchant_trans_id data))
                           (f (merchant_trans_id data)) ;;
               if (isPaid : bool)
               then createErrorResponse ClickError.AlreadyPaid
                      "Already paid" data
               else save
           | None => save
           end)
    (fun error =>
       console_error "Click prepare error:" error ;;;
       createErrorResponse ClickError.UserNotFound "Internal prepare error"
         data).

(** [complete] *)
Definition complete (data : ClickRequestDTO) : M World Response.t :=
  try_catch
    ((* 1. Validate sign string *)
     if negb (validateSignString data true)
     then createErrorResponse ClickError.SignFailed "Invalid sign_string"
            data
     else
       (* 2. Check if order exists *)
       order <- await (CheckOrder (merchant_trans_id data))
                  (checkOrder (validate config) (merchant_trans_id data)) ;;
       if negb (Order.exists_ order)
       then createErrorResponse ClickError.UserNotFound "Order not found"
              data
       else
         (* 3. Handle Click error if present *)
         if gt (parseInt (error data)) (Num 0)
         then createErrorResponse (parseInt (error data)) "Click error" data
         else
           (* 4. Update payment status *)
           await
             (OnSuccess (click_trans_id data) (merchant_trans_id data)
                (merchant_prepare_id data))
             (onSuccess (handle config) (click_trans_id data)
                (merchant_trans_id data) (merchant_prepare_id data)) ;;;
           ret {| Response.click_trans_id := click_trans_id data;
                  Response.merchant_trans_id := merchant_trans_id data;
                  Response.merchant_prepare_id := None;
                  Response.error := ClickError.Success;
                  Response.error_note := "Success" |})
    (fun error =>
       console_error "Click complete error:" error ;;;
       createErrorResponse ClickError.UserNotFound "Internal complete error"
         data).

(** [handleTransaction]; [+data.action] is [data.action], a number *)
Definition handleTransaction (data : ClickRequestDTO)
  : M World Response.t :=
  let actionType := action data in
  if strict_eq actionType TransactionActions.Prepare then prepare data
  else if strict_eq actionType TransactionActions.Complete
  then complete data
  else createErrorResponse ClickError.ActionNotFound "Invalid action" data.

End ClickPayment.

(* ===================================================================== *)
(** ** Vocabulary of the properties *)
(* ===================================================================== *)

(** the object [createErrorResponse] returns *)
Definition error_response (data : ClickRequestDTO) (error : number)
    (errorNote : string) : Response.t :=
  {| Response.click_trans_id := click_trans_id data;
     Response.merchant_trans_id := merchant_trans_id data;
     Response.merchant_prepare_id :=
       if strict_eq (action data) TransactionActions.Prepare
       then Some (IdStr "") else None;
     Response.error := error;
     Response.error_note := errorNote |}.

(** the invocations [createErrorResponse] makes: [onFail], when there is
    one *)
Definition fail_calls {World} (config : ClickConfig World)
    (data : ClickRequestDTO) (error : number) (errorNote : string)
  : list Call :=
  match onFail (handle config) with
  | Some _ =>
      [OnFail (click_trans_id data) (merchant_trans_id data) error errorNote]
  | None => []
  end.

(** the collaborators a handler awaits *)
Definition awaited (c : Call) : bool :=
  is_checkOrder c || is_checkPayment c || is_onPrepare c || is_onSuccess c.

(** The sign text in the order the specification gives: transaction id,
    service id, secret key, merchant order id, the prepare reference id
    when it is required, amount, action, sign time. *)
Definition spec_sign_text (secret : string) (data : ClickRequestDTO)
    (requireReferenceId : bool) : string :=
  String.concat ""
    ([ number_toString (click_trans_id data);
       service_id data;
       secret;
       merchant_trans_id data ]
     ++ (if requireReferenceId then [merchant_prepare_id data] else [])
     ++ [ number_toString (amount data);
          number_toString (action data);
          sign_time data ]).

(** the verifier of the specification *)
Definition spec_verify (secret : string) (data : ClickRequestDTO)
    (requireReferenceId : bool) : bool :=
  String.eqb (sign_string data)
    (MD5.md5_hex (spec_sign_text secret data requireReferenceId)).

(** The sign text the code digests: the prepare id, when included, is the
    last value of [md5Params]. *)
Definition code_sign_text (secret : string) (data : ClickRequestDTO)
    (includesPrepareId : bool) : string :=
  String.concat ""
    ([ number_toString (click_trans_id data);
       service_id data;
       secret;
       merchant_trans_id data;
       number_toString (amount data);
       number_toString (action data);
       sign_time data ]
     ++ (if includesPrepareId then [merchant_prepare_id data] else [])).

(** the handler of a phase: [complete] or [prepare] *)
Definition handler {World} (config : ClickConfig World) (completes : bool)
  : ClickRequestDTO -> M World Response.t :=
  if completes then complete config else prepare config.

(** every character is one of [0-9a-f] *)
Fixpoint lower_hex (s : string) : bool :=
  match s with
  | EmptyString => true
  | String c s' =>
      let n := code c in
      (((48 <=? n) && (n <=? 57)) || ((97 <=? n) && (n <=? 102)))
      && lower_hex s'
  end.

(* ===================================================================== *)
(** ** A merchant and its requests, for the concrete runs *)
(* ===================================================================== *)

Module Shop.

(** the merchant's store: the journal of what its functions did *)
Definition World : Type := list string.

(** a collaborator that writes a line and settles as told *)
Definition answer {A} (line : string) (r : Settled A) : Async World A :=
  fun w => (r, w ++ [line]).

Definition merchant (order : Settled Order.t) (paid : option (Settled bool))
    (prepared : Settled PrepareId) (succeeded : Settled unit)
    (failed : option (Settled unit)) : ClickConfig World :=
  {| serviceId := "12345";
     merchantId := "777";
     secretKey := "secret";
     returnUrl := None;
     validate :=
       {| checkOrder := fun _ => answer "checkOrder" order;
          checkPayment :=
            match paid with
            | Some r => Some (fun _ => answer "checkPayment" r)
            | None => None
            end |};
     handle :=
       {| onPrepare := fun _ _ _ => answer "onPrepare" prepared;
          onSuccess := fun _ _ _ => answer "onSuccess" succeeded;
          onFail :=
            match failed with
            | Some r => Some (fun _ _ _ _ => answer "onFail" r)
            | None => None
            end |} |}.

Definition found (amount : option Z) : Settled Order.t :=
  Fulfilled {| Order.exists_ := true;
               Order.amount := option_map Num amount |}.


(** the usual merchant: order [O1] of 1000, no [checkPayment], prepare
    id [P1], no [onFail] *)
Definition plain : ClickConfig World :=
  merchant (found (Some 1000)) None (Fulfilled (IdStr "P1"))
    (Fulfilled tt) None.


(** the order [O1] is known with amount 0 *)
Definition free_order : ClickConfig World :=
  merchant (found (Some 0)) None (Fulfilled (IdStr "P1")) (Fulfilled tt) None.


(** [checkOrder] throws *)
Definition store_down : ClickConfig World :=
  merchant (Rejected (Error "store down")) None (Fulfilled (IdStr "P1"))
    (Fulfilled tt) None.


Definition request (amount action : Z) (prepare_id error sign : string)
  : ClickRequestDTO :=
  {| click_trans_id := Num 1;
     service_id := "12345";
     click_paydoc_id := "77";
     merchant_trans_id := "O1";
     merchant_prepare_id := prepare_id;
     amount := Num amount;
     action := Num action;
     error := error;
     error_note := "";
     sign_time := "2024-01-01 12:00:00";
     sign_string := sign;
     click_paydoc_type := "" |}.

(** Prepare of 1000, signed: md5 of [112345secretO1100002024-01-01 12:00:00] *)
Definition prepare_1000 : ClickRequestDTO :=
  request 1000 0 "" "0" "d43e738011b5400eb35e42224c9c23f6".

(** Prepare of 2000, signed *)
Definition prepare_2000 : ClickRequestDTO :=
  request 2000 0 "" "0" "6a38291b9892a3486b16ea3e85e9e94d".

(** Prepare with a signature that is not the digest *)
Definition prepare_tampered : ClickRequestDTO :=
  request 1000 0 "" "0" "00000000000000000000000000000000".

(** Complete with a signature that is not the digest *)
Definition complete_tampered : ClickRequestDTO :=
  request 1000 1 "P1" "0" "00000000000000000000000000000000".

(** Complete with prepare id [P1], signed the way the code digests:
    md5 of [112345secretO1100012024-01-01 12:00:00P1] *)
Definition complete_with (error : string) : ClickRequestDTO :=
  request 1000 1 "P1" error "b9291bc23bc6e5192a9934560fe02bc0".

(** Complete with prepare id [P1], signed in the order of the
    specification: md5 of [112345secretO1P1100012024-01-01 12:00:00] *)
Definition complete_click : ClickRequestDTO :=
  request 1000 1 "P1" "0" "e48a1eae73e39b36be8a3ccf4a7f9ac9".

(** action 5, signed *)
Definition action_5 : ClickRequestDTO :=
  request 1000 5 "" "0" "093be814c9da3a6933027cb97b5e3b78".

End Shop.



(* ===================================================================== *)
(** ** Vocabulary of the further properties *)
(* ===================================================================== *)


(** the awaited calls of a request that passes every check, in order *)
Definition expected_calls {World} (config : ClickConfig World)
    (data : ClickRequestDTO) : list Call :=
  if strict_eq (action data) TransactionActions.Prepare then
    CheckOrder (merchant_trans_id data)
    :: match checkPayment (validate config) with
       | Some _ => [CheckPayment (merchant_trans_id data)]
       | None => []
       end
    ++ [OnPrepare (click_trans_id data) (merchant_trans_id data)
          (amount data)]
  else if strict_eq (action data) TransactionActions.Complete then
    [ CheckOrder (merchant_trans_id data);
      OnSuccess (click_trans_id data) (merchant_trans_id data)
        (merchant_prepare_id data) ]
  else [].





(** the request with another sign time and another prepare id *)
Definition with_time_and_prepare_id (data : ClickRequestDTO)
    (time prepare_id : string) : ClickRequestDTO :=
  {| click_trans_id := click_trans_id data;
     service_id := service_id data;
     click_paydoc_id := click_paydoc_id data;
     merchant_trans_id := merchant_trans_id data;
     merchant_prepare_id := prepare_id;
     amount := amount data;
     action := action data;
     error := error data;
     error_note := error_note data;
     sign_time := time;
     sign_string := sign_string data;
     click_paydoc_type := click_paydoc_type data |}.

(** the request with another order id and another amount *)
Definition with_order_and_amount (data : ClickRequestDTO)
    (order_id : string) (n : number) : ClickRequestDTO :=
  {| click_trans_id := click_trans_id data;
     service_id := service_id data;
     click_paydoc_id := click_paydoc_id data;
     merchant_trans_id := order_id;
     merchant_prepare_id := merchant_prepare_id data;
     amount := n;
     action := action data;
     error := error data;
     error_note := error_note data;
     sign_time := sign_time data;
     sign_string := sign_string data;
     click_paydoc_type := click_paydoc_type data |}.

(** more merchants and requests, for the concrete runs of the further
    properties *)
Module Cases.

(** [checkPayment] says the order is paid *)
Definition paid : ClickConfig Shop.World :=
  Shop.merchant (Shop.found (Some 1000)) (Some (Fulfilled true))
    (Fulfilled (IdStr "P1")) (Fulfilled tt) None.

(** [checkPayment] says it is not; the order has no amount; the prepare
    id is a number *)
Definition unpaid : ClickConfig Shop.World :=
  Shop.merchant (Shop.found None) (Some (Fulfilled false))
    (Fulfilled (IdNum (Num 42))) (Fulfilled tt) None.

(** Prepare of 12 for order [O1], signed: md5 of
    [112345secretO11202024-01-01 12:00:00] *)
Definition prepare_12 : ClickRequestDTO :=
  Shop.request 12 0 "" "0" "10af06edcf95965270336cabc4af0c01".

(** Complete without a prepare id, signed: md5 of
    [112345secretO1100012024-01-01 12:00:00] *)
Definition complete_bare : ClickRequestDTO :=
  Shop.request 1000 1 "" "0" "2f92f4bf60694cda43c6a6e831b5a3f6".

End Cases.

(* ===================================================================== *)
(** ** An [onFail] that is not an [async] function *)
(* ===================================================================== *)

(** [onFail] is typed [(data) => Promise<void>]; a function of that type
    that is not declared [async] can throw before it returns its promise.
    [createErrorResponse] attaches [.catch(console.error)] to the value
    returned, so it handles the rejection of the promise and not a throw
    of the call. The handlers are written once more here over the error
    formatter they use, and the formatter over such an [onFail]. An
    awaited collaborator is called inside [try] under [await], where a
    throw of the call and a rejection of the promise are caught alike, so
    [Rejected] stands for both. *)

(** what calling a function typed [=> Promise<A>] does: it throws on the
    spot, or returns a promise that settles *)
Inductive Invoked (A : Type) : Type :=
  | Raises (e : JsError)
  | Returns (p : Settled A).
Arguments Raises {A} e.
Arguments Returns {A} p.

Definition OnFailSync (World : Type) : Type :=
  number -> string -> number -> string -> World -> Invoked unit * World.

(** an [async] [onFail] seen as a function that may throw: it never does *)
Definition returns_promise {World}
    (f : number -> string -> number -> string -> Async World unit)
  : OnFailSync World :=
  fun id order err note w =>
    let '(p, w1) := f id order err note w in (Returns p, w1).

Section Raising.
Context {World : Type}.
Variable config : ClickConfig World.

(** [f(...).catch(console.error)] where the call [f(...)] may throw: the
    throw is raised at the call; a rejection only reaches the console *)
Definition detached_sync (c : Call) (f : World -> Invoked unit * World)
  : M World unit :=
  fun w =>
    let '(r, w1) := f w in
    match r with
    | Raises e => (Rejected e, w1, [Invoke c (Threw e)])
    | Returns p =>
        (Fulfilled tt, w1,
         Invoke c (outcome_of p)
           :: match p with
              | Fulfilled _ => []
              | Rejected e => [ConsoleError "" e]
              end)
    end.

(** [createErrorResponse], with [onFail_sync] for
    [this.config.handle.onFail] *)
Definition createErrorResponse_sync (onFail_sync : option (OnFailSync World))
    (error : number) (errorNote : string) (data : ClickRequestDTO)
  : M World Response.t :=
  match onFail_sync with
  | Some f =>
      detached_sync
        (OnFail (click_trans_id data) (merchant_trans_id data)
           error errorNote)
        (f (click_trans_id data) (merchant_trans_id data) error errorNote)
  | None => ret tt
  end ;;;
  ret {| Response.click_trans_id := click_trans_id data;
         Response.merchant_trans_id := merchant_trans_id data;
         Response.merchant_prepare_id :=
           if strict_eq (action data) TransactionActions.Prepare
           then Some (IdStr "") else None;
         Response.error := error;
         Response.error_note := errorNote |}.

(** [prepare], over the formatter [fmt] it calls as
    [this.createErrorResponse] *)
Definition prepare_by
    (fmt : number -> string -> ClickRequestDTO -> M World Response.t)
    (data : ClickRequestDTO) : M World Response.t :=
  try_catch
    (if negb (validateSignString config data false)
     then fmt ClickError.SignFailed "Invalid sign_string" data
     else
       order <- await (CheckOrder (merchant_trans_id data))
                  (checkOrder (validate config) (merchant_trans_id data)) ;;
       if negb (Order.exists_ order)
       then fmt ClickError.UserNotFound "Order not found" data
       else
         if truthy (Order.amount order)
            && strict_neq (Order.amount order) (amount data)
         then fmt ClickError.InvalidAmount "Invalid amount" data
         else
           let save :=
             prepare_id <-
               await
                 (OnPrepare (click_trans_id data) (merchant_trans_id data)
                    (amount data))
                 (onPrepare (handle config) (click_trans_id data)
                    (merchant_trans_id data) (amount data)) ;;
             ret {| Response.click_trans_id := click_trans_id data;
                    Response.merchant_trans_id := merchant_trans_id data;
                    Response.merchant_prepare_id := Some prepare_id;
                    Response.error := ClickError.Success;
                    Response.error_note := "Success" |} in
           match checkPayment (validate config) with
           | Some f =>
               isPaid <- await (CheckPayment (merchant_trans_id data))
                           (f (merchant_trans_id data)) ;;
               if (isPaid : bool)
               then fmt ClickError.AlreadyPaid "Already paid" data
               else save
           | None => save
           end)
    (fun error =>
       console_error "Click prepare error:" error ;;;
       fmt ClickError.UserNotFound "Internal prepare error" data).

(** [complete], over the formatter *)
Definition complete_by
    (fmt : number -> string -> ClickRequestDTO -> M World Response.t)
    (data : ClickRequestDTO) : M World Response.t :=
  try_catch
    (if negb (validateSignString config data true)
     then fmt ClickError.SignFailed "Invalid sign_string" data
     else
       order <- await (CheckOrder (merchant_trans_id data))
                  (checkOrder (validate config) (merchant_trans_id data)) ;;
       if negb (Order.exists_ order)
       then fmt ClickError.UserNotFound "Order not found" data
       else
         if gt (parseInt (error data)) (Num 0)
         then fmt (parseInt (error data)) "Click error" data
         else
           await
             (OnSuccess (click_trans_id data) (merchant_trans_id data)
                (merchant_prepare_id data))
             (onSuccess (handle config) (click_trans_id data)
                (merchant_trans_id data) (merchant_prepare_id data)) ;;;
           ret {| Response.click_trans_id := click_trans_id data;
                  Response.merchant_trans_id := merchant_trans_id data;
                  Response.merchant_prepare_id := None;
                  Response.error := ClickError.Success;
                  Response.error_note := "Success" |})
    (fun error =>
       console_error "Click complete error:" error ;;;
       fmt ClickError.UserNotFound "Internal complete error" data).

(** [handleTransaction], over the formatter *)
Definition handleTransaction_by
    (fmt : number -> string -> ClickRequestDTO -> M World Response.t)
    (data : ClickRequestDTO) : M World Response.t :=
  let actionType := action data in
  if strict_eq actionType TransactionActions.Prepare
  then prepare_by fmt data
  else if strict_eq actionType TransactionActions.Complete
  then complete_by fmt data
  else fmt ClickError.ActionNotFound "Invalid action" data.

(** [handleTransaction] of a [ClickPayment] whose [onFail] is
    [onFail_sync] *)
Definition handleTransaction_sync (onFail_sync : option (OnFailSync World))
    (data : ClickRequestDTO) : M World Response.t :=
  handleTransaction_by (createErrorResponse_sync onFail_sync) data.

End Raising.

(** an [onFail] that is not [async] and throws before it returns a
    promise, e.g. [(d) => { throw new Error("notify failed") }] *)
Definition onFail_throws : OnFailSync Shop.World :=
  fun _ _ _ _ w => (Raises (Error "notify failed"), w ++ ["onFail"]).

Arguments validateSignString : simpl never.
Arguments parseInt : simpl never.

(* ===================================================================== *)
(** ** The digest *)
(* ===================================================================== *)

(** the test suite of RFC 1321 *)
Example md5_empty : MD5.md5_hex "" = "d41d8cd98f00b204e9800998ecf8427e".
Proof. vm_compute. reflexivity. Qed.

Example md5_abc : MD5.md5_hex "abc" = "900150983cd24fb0d6963f7d28e17f72".
Proof. vm_compute. reflexivity. Qed.

Example md5_two_blocks :
  MD5.md5_hex
    "12345678901234567890123456789012345678901234567890123456789012345678901234567890"
  = "57edf4a22be3c955ac49da2e2107b67a".
Proof. vm_compute. reflexivity. Qed.

Lemma length_append (s t : string) :
  String.length (s ++ t)%string = (String.length s + String.length t)%nat.
Proof. induction s as [|c s IH]; simpl; [reflexivity|]. now rewrite IH. Qed.

Lemma lower_hex_app (s t : string) :
  lower_hex (s ++ t)%string = lower_hex s && lower_hex t.
Proof.
  induction s as [|c s IH]; simpl; [reflexivity|].
  rewrite IH. now rewrite andb_assoc.
Qed.

Lemma hex_app (l1 l2 : list Z) :
  MD5.hex (l1 ++ l2) = (MD5.hex l1 ++ MD5.hex l2)%string.
Proof.
  induction l1 as [|b l1 IH]; simpl; [reflexivity|].
  now rewrite IH.
Qed.

Lemma hex_digit_lower (n : Z) :
  0 <= n < 16 -> lower_hex (String (MD5.hex_digit n) "") = true.
Proof.
  intros H. unfold MD5.hex_digit.
  assert (Hm : (Z.to_nat n < 16)%nat) by lia.
  revert Hm. generalize (Z.to_nat n) as m. intros m Hm.
  do 16 (destruct m as [|m]; [reflexivity|]). lia.
Qed.

Lemma hex_le_bytes (n : nat) (x : Z) :
  lower_hex (MD5.hex (MD5.le_bytes n x)) = true
  /\ String.length (MD5.hex (MD5.le_bytes n x)) = (2 * n)%nat.
Proof.
  revert x. induction n as [|n IH]; intros x; [split; reflexivity|].
  cbn [MD5.le_bytes MD5.hex].
  destruct (IH (Z.shiftr x 8)) as [IH1 IH2].
  assert (Hb : 0 <= Z.land x 0xff < 256).
  { change 0xff with (Z.ones 8). rewrite Z.land_ones by lia.
    apply Z.mod_pos_bound. reflexivity. }
  assert (Hhi : 0 <= Z.shiftr (Z.land x 0xff) 4 < 16).
  { rewrite Z.shiftr_div_pow2 by lia. change (2 ^ 4) with 16.
    split; [apply Z.div_pos; lia | apply Z.div_lt_upper_bound; lia]. }
  assert (Hlo : 0 <= Z.land (Z.land x 0xff) 0xf < 16).
  { change 0xf with (Z.ones 4). rewrite Z.land_ones by lia.
    apply Z.mod_pos_bound. reflexivity. }
  split.
  - change (String ?a (String ?b ?r))
      with (String a "" ++ String b "" ++ r)%string.
    rewrite !lower_hex_app, IH1, !hex_digit_lower by assumption.
    reflexivity.
  - cbn [String.length]. rewrite IH2. lia.
Qed.

(** [digest('hex')] is 32 characters of [0-9a-f] *)
Lemma md5_hex_lowercase (s : string) :
  lower_hex (MD5.md5_hex s) = true /\ String.length (MD5.md5_hex s) = 32%nat.
Proof.
  unfold MD5.md5_hex, MD5.digest.
  destruct (fold_left _ _ _) as [[[a b] c] d].
  rewrite !hex_app.
  destruct (hex_le_bytes 4 a) as [A1 A2], (hex_le_bytes 4 b) as [B1 B2],
    (hex_le_bytes 4 c) as [C1 C2], (hex_le_bytes 4 d) as [D1 D2].
  split.
  - now rewrite !lower_hex_app, A1, B1, C1, D1.
  - rewrite !length_append, A2, B2, C2, D2. reflexivity.
Qed.

(* ===================================================================== *)
(** ** Numbers and [parseInt] *)
(* ===================================================================== *)

Lemma strict_eq_Num (a : number) (z : Z) :
  strict_eq a (Num z) = true <-> a = Num z.
Proof.
  destruct a as [x|]; cbn.
  - rewrite Z.eqb_eq. split; congruence.
  - split; discriminate.
Qed.

Lemma strict_eq_Num_false (a : number) (z : Z) :
  strict_eq a (Num z) = false <-> a <> Num z.
Proof.
  rewrite <- strict_eq_Num. destruct (strict_eq a (Num z)); split; congruence.
Qed.

Example parseInt_samples :
  parseInt "9" = Num 9 /\ parseInt "  -12abc" = Num (-12)
  /\ parseInt "0x1F" = Num 31 /\ parseInt "+7.5" = Num 7
  /\ parseInt "0" = Num 0 /\ parseInt "-4" = Num (-4)
  /\ parseInt "abc" = NaN /\ parseInt "" = NaN /\ parseInt "-" = NaN.
Proof. repeat split. Qed.







(* ===================================================================== *)
(** ** The handlers *)
(* ===================================================================== *)

Ltac unfold_run :=
  unfold handleTransaction, handler, prepare, complete, createErrorResponse,
    try_catch, bind, await, detached, console_error, ret.

(** case analysis on everything a run depends on: which collaborators are
    configured, how each call settles, how each test goes *)
Ltac split_run :=
  repeat (cbn [fst snd result trace world calls negb andb orb app];
    match goal with
    | H : ?x = _ |- context [?x] => rewrite H
    | |- context [match onFail ?h with _ => _ end] =>
        destruct (onFail h) as [?|]
    | |- context [match checkPayment ?v with _ => _ end] =>
        destruct (checkPayment v) as [?|]
    | |- context [let '(_, _) := ?x in _] =>
        destruct x as [[?|?] ?] eqn:?
    | |- context [if ?b then _ else _] => destruct b eqn:?
    end).

Section Runs.
Context {World : Type}.
Variable config : ClickConfig World.

(** *** The signature check *)

(** What [validateSignString] computes: the digest of the values of
    [md5Params] in insertion order, compared with [sign_string]. *)
Lemma validateSignString_digest (data : ClickRequestDTO) (b : bool) :
  validateSignString config data b
  = String.eqb (sign_string data)
      (MD5.md5_hex (code_sign_text (secretKey config) data b)).
Proof. destruct b; reflexivity. Qed.

Lemma validateSignString_iff (data : ClickRequestDTO) (b : bool) :
  validateSignString config data b = true
  <-> sign_string data
      = MD5.md5_hex (code_sign_text (secretKey config) data b).
Proof. rewrite validateSignString_digest. apply String.eqb_eq. Qed.

(** Without the prepare id the order of the code is the order of the
    specification, so Prepare is verified as specified. *)
Lemma validateSignString_prepare_spec (data : ClickRequestDTO) :
  validateSignString config data false
  = spec_verify (secretKey config) data false.
Proof. reflexivity. Qed.

(** *** The monad *)

Lemma bind_ret_l {A B} (a : A) (k : A -> M World B) (w : World) :
  bind (ret a) k w = k a w.
Proof. unfold bind, ret. destruct (k a w) as [[r w'] t]. reflexivity. Qed.

Lemma bind_ret_r {A} (m : M World A) (w : World) : bind m ret w = m w.
Proof.
  unfold bind, ret. destruct (m w) as [[[a|e] w'] t]; [|reflexivity].
  now rewrite app_nil_r.
Qed.

Lemma bind_assoc {A B C} (m : M World A) (k : A -> M World B)
    (h : B -> M World C) (w : World) :
  bind (bind m k) h w = bind m (fun a => bind (k a) h) w.
Proof.
  unfold bind. destruct (m w) as [[[a|e] w1] t1]; [|reflexivity].
  destruct (k a w1) as [[[b|e] w2] t2]; [|reflexivity].
  destruct (h b w2) as [[r w3] t3]. now rewrite app_assoc.
Qed.

(** a [try] block that raises nothing is not caught *)
Lemma try_catch_fulfilled {A} (m : M World A) (h : JsError -> M World A)
    (w : World) (a : A) :
  result (m w) = Fulfilled a -> try_catch m h w = m w.
Proof.
  unfold try_catch, result. destruct (m w) as [[[a'|e] w1] t1]; cbn;
    [reflexivity | discriminate].
Qed.

(** a [try] block with a handler that raises nothing raises nothing *)
Lemma try_catch_total {A} (m : M World A) (h : JsError -> M World A)
    (w : World) :
  (forall e w', exists a, result (h e w') = Fulfilled a) ->
  exists a, result (try_catch m h w) = Fulfilled a.
Proof.
  intros Hh. unfold try_catch, result.
  destruct (m w) as [[[a|e] w1] t1]; cbn; [now exists a|].
  destruct (Hh e w1) as [a Ha]. unfold result in Ha.
  destruct (h e w1) as [[r w2] t2]. cbn in *. now exists a.
Qed.

(** *** Dispatch *)

Lemma handleTransaction_Prepare (data : ClickRequestDTO) :
  action data = TransactionActions.Prepare ->
  handleTransaction config data = prepare config data.
Proof. intros H. unfold handleTransaction. rewrite H. reflexivity. Qed.

Lemma handleTransaction_Complete (data : ClickRequestDTO) :
  action data = TransactionActions.Complete ->
  handleTransaction config data = complete config data.
Proof. intros H. unfold handleTransaction. rewrite H. reflexivity. Qed.

(** *** The error formatter *)

Lemma createErrorResponse_result (e : number) (note : string)
    (data : ClickRequestDTO) (w : World) :
  result (createErrorResponse config e note data w)
  = Fulfilled (error_response data e note).
Proof. unfold error_response. unfold_run. split_run; reflexivity. Qed.

Lemma createErrorResponse_calls (e : number) (note : string)
    (data : ClickRequestDTO) (w : World) :
  calls (trace (createErrorResponse config e note data w))
  = fail_calls config data e note.
Proof. unfold fail_calls. unfold_run. split_run; reflexivity. Qed.

(** *** The claims *)



(** Where the amount check of Prepare fires: for every Prepare request
    with a valid signature where checkOrder returns exists=true with an
    amount that is a number other than zero and differs from
    payload.amount, the response has errorCode InvalidAmount (-2), its
    merchant_prepare_id is the empty string, and onPrepare is never
    called. *)
Theorem invalid_amount (data : ClickRequestDTO) (w w1 : World)
    (order : Order.t) (a : Z) :
  action data = TransactionActions.Prepare ->
  validateSignString config data false = true ->
  checkOrder (validate config) (merchant_trans_id data) w
  = (Fulfilled order, w1) ->
  Order.exists_ order = true ->
  Order.amount order = Some (Num a) ->
  a <> 0 ->
  amount data <> Num a ->
  let r := handleTransaction config data w in
  exists resp,
    result r = Fulfilled resp
    /\ Response.error resp = Num (-2)
    /\ Response.merchant_prepare_id resp = Some (IdStr "")
    /\ invoked is_onPrepare (trace r) = false.
Proof.
  intros Hact Hsig Hord Hex Ham Ha Hneq.
  assert (Hgo : truthy (Order.amount order)
                && strict_neq (Order.amount order) (amount data) = true).
  { rewrite Ham. cbn. apply andb_true_intro. split.
    - apply negb_true_iff, Z.eqb_neq, Ha.
    - destruct (amount data) as [y|]; [|reflexivity].
      apply negb_true_iff, Z.eqb_neq. congruence. }
  unfold invoked. rewrite (handleTransaction_Prepare _ Hact). unfold_run.
  rewrite Hact, Hsig.
  change (strict_eq TransactionActions.Prepare TransactionActions.Prepare)
    with true.
  cbn [negb]. rewrite Hord. cbn [negb]. rewrite Hex. cbn [negb]. rewrite Hgo.
  split_run; eexists; cbn; auto.
Qed.

(** When onFail is absent or an [async] function (its call returns the
    promise and throws nothing on the spot), handleTransaction always
    returns a response; if a call of checkOrder, checkPayment, onPrepare
    or onSuccess threw, that response is the well-formed error response
    with errorCode UserNotFound (-5). An onFail that throws on the spot
    is the subject of [onFail_throw_escapes]. *)
Theorem never_faults (data : ClickRequestDTO) (w : World) :
  let r := handleTransaction config data w in
  exists resp,
    result r = Fulfilled resp
    /\ (threw awaited (trace r) = true ->
        Response.error resp = Num (-5)
        /\ resp
           = error_response data ClickError.UserNotFound
               (if strict_eq (action data) TransactionActions.Prepare
                then "Internal prepare error"
                else "Internal complete error")).
Proof.
  unfold threw, error_response. unfold_run.
  unfold TransactionActions.Prepare, TransactionActions.Complete.
  split_run; eexists; (split; [reflexivity|]); cbn; intros Ht;
    solve [split; reflexivity | discriminate Ht | congruence].
Qed.



(** C8. Scenario A: the Prepare payload with transaction id 1, order "O1",
    amount 1000, action 0 and a valid signature, where checkOrder returns
    exists=true and amount 1000, checkPayment is not configured and
    onPrepare returns prepare id "P1", gets exactly the response
    click_trans_id 1, merchant_trans_id "O1", merchant_prepare_id "P1",
    error 0, error_note "Success". *)
Theorem scenario_A (data : ClickRequestDTO) (w w1 w2 : World) :
  click_trans_id data = Num 1 ->
  merchant_trans_id data = "O1" ->
  amount data = Num 1000 ->
  action data = Num 0 ->
  validateSignString config data false = true ->
  checkOrder (validate config) "O1" w
  = (Fulfilled {| Order.exists_ := true; Order.amount := Some (Num 1000) |},
     w1) ->
  checkPayment (validate config) = None ->
  onPrepare (handle config) (Num 1) "O1" (Num 1000) w1
  = (Fulfilled (IdStr "P1"), w2) ->
  result (handleTransaction config data w)
  = Fulfilled {| Response.click_trans_id := Num 1;
                 Response.merchant_trans_id := "O1";
                 Response.merchant_prepare_id := Some (IdStr "P1");
                 Response.error := Num 0;
                 Response.error_note := "Success" |}.
Proof.
  intros Hid Hmt Ham Hact Hsig Hord Hpay Hprep.
  rewrite (handleTransaction_Prepare _ Hact). unfold_run.
  rewrite Hsig, Hmt, Hid, Ham. cbn [negb].
  rewrite Hord. cbn. rewrite Hpay, Hprep. reflexivity.
Qed.

(** C9. For every Prepare request with a valid signature where checkOrder
    returns exists=true and amount 0, the amount is not compared with
    payload.amount: the response is never InvalidAmount, whatever
    payload.amount is, and when checkPayment is not configured or answers
    false and onPrepare returns a prepare id, the request succeeds with
    that id, having called checkOrder, checkPayment if configured, and
    onPrepare. *)
Theorem zero_order_amount (data : ClickRequestDTO) (w w1 : World)
    (order : Order.t) :
  action data = TransactionActions.Prepare ->
  validateSignString config data false = true ->
  checkOrder (validate config) (merchant_trans_id data) w
  = (Fulfilled order, w1) ->
  Order.exists_ order = true ->
  Order.amount order = Some (Num 0) ->
  let r := handleTransaction config data w in
  (forall resp, result r = Fulfilled resp ->
                Response.error resp <> ClickError.InvalidAmount)
  /\ (forall (pid : PrepareId) (w2 w3 : World),
         match checkPayment (validate config) with
         | Some f => f (merchant_trans_id data) w1 = (Fulfilled false, w2)
         | None => w2 = w1
         end ->
         onPrepare (handle config) (click_trans_id data)
           (merchant_trans_id data) (amount data) w2
         = (Fulfilled pid, w3) ->
         result r
         = Fulfilled
             {| Response.click_trans_id := click_trans_id data;
                Response.merchant_trans_id := merchant_trans_id data;
                Response.merchant_prepare_id := Some pid;
                Response.error := ClickError.Success;
                Response.error_note := "Success" |}
         /\ calls (trace r)
            = CheckOrder (merchant_trans_id data)
              :: match checkPayment (validate config) with
                 | Some _ => [CheckPayment (merchant_trans_id data)]
                 | None => []
                 end
              ++ [OnPrepare (click_trans_id data) (merchant_trans_id data)
                    (amount data)]).
Proof.
  intros Hact Hsig Hord Hex Ham.
  rewrite (handleTransaction_Prepare _ Hact). unfold_run.
  rewrite Hsig. cbn [negb].
  rewrite Hord. cbn [negb]. rewrite Hex, Ham. cbn [negb truthy Z.eqb andb].
  split.
  - intros resp. split_run; cbn; intros Hr; inversion Hr; subst; cbn;
      discriminate.
  - intros pid w2 w3 Hpay Hprep.
    destruct (checkPayment (validate config)) as [f|].
    + rewrite Hpay. cbn. rewrite Hprep. cbn. auto.
    + subst w2. rewrite Hprep. cbn. auto.
Qed.


End Runs.

(* ===================================================================== *)
(** ** Concrete runs *)
(* ===================================================================== *)

(** C1. The Complete request of transaction 1, order "O1", prepare id
    "P1", amount 1000, whose sign_string is the MD5 digest, in lowercase
    hex, of the fields in the order of the specification (the prepare id
    between the order id and the amount), is verified by the verifier of
    the specification and rejected by [validateSignString], which puts
    the prepare id last: handleTransaction answers SignFailed (-1). The
    same request signed with the prepare id last is accepted by the code
    and not by the verifier of the specification. *)
Theorem complete_signature_order :
  spec_sign_text "secret" Shop.complete_click true
  = "112345secretO1P1100012024-01-01 12:00:00"
  /\ code_sign_text "secret" Shop.complete_click true
     = "112345secretO1100012024-01-01 12:00:00P1"
  /\ spec_verify (secretKey Shop.plain) Shop.complete_click true = true
  /\ validateSignString Shop.plain Shop.complete_click true = false
  /\ result (handleTransaction Shop.plain Shop.complete_click [])
     = Fulfilled (error_response Shop.complete_click ClickError.SignFailed
                    "Invalid sign_string")
  /\ spec_verify (secretKey Shop.plain) (Shop.complete_with "0") true = false
  /\ validateSignString Shop.plain (Shop.complete_with "0") true = true.
Proof. repeat split; vm_compute; reflexivity. Qed.





(** C4. The amount check misses an order amount of 0: checkOrder returns
    exists=true with the defined amount 0, the validly signed Prepare
    payload says 1000, and instead of InvalidAmount (-2) the code answers
    Success after calling onPrepare, because [order.amount &&], the test
    for the presence of the optional amount, is also false for 0. *)
Lemma invalid_amount_zero_order :
  action Shop.prepare_1000 = TransactionActions.Prepare
  /\ validateSignString Shop.free_order Shop.prepare_1000 false = true
  /\ checkOrder (validate Shop.free_order) "O1" []
     = (Fulfilled {| Order.exists_ := true; Order.amount := Some (Num 0) |},
        ["checkOrder"])
  /\ amount Shop.prepare_1000 = Num 1000
  /\ result (handleTransaction Shop.free_order Shop.prepare_1000 [])
     = Fulfilled {| Response.click_trans_id := Num 1;
                    Response.merchant_trans_id := "O1";
                    Response.merchant_prepare_id := Some (IdStr "P1");
                    Response.error := Num 0;
                    Response.error_note := "Success" |}
  /\ calls (trace (handleTransaction Shop.free_order Shop.prepare_1000 []))
     = [CheckOrder "O1"; OnPrepare (Num 1) "O1" (Num 1000)].
Proof. repeat split; vm_compute; reflexivity. Qed.

Lemma invalid_amount_witness :
  validateSignString Shop.plain Shop.prepare_2000 false = true
  /\ exists resp,
       result (handleTransaction Shop.plain Shop.prepare_2000 [])
       = Fulfilled resp
       /\ Response.error resp = Num (-2)
       /\ Response.merchant_prepare_id resp = Some (IdStr "")
       /\ invoked is_onPrepare
            (trace (handleTransaction Shop.plain Shop.prepare_2000 []))
          = false.
Proof.
  assert (Hs : validateSignString Shop.plain Shop.prepare_2000 false = true)
    by (vm_compute; reflexivity).
  split; [exact Hs|].
  apply (invalid_amount Shop.plain Shop.prepare_2000 [] ["checkOrder"]
           {| Order.exists_ := true; Order.amount := Some (Num 1000) |} 1000);
    [reflexivity | exact Hs | reflexivity | reflexivity | reflexivity
    | discriminate | discriminate].
Defined.

Lemma never_faults_witness :
  threw awaited (trace (handleTransaction Shop.store_down Shop.prepare_1000 []))
  = true
  /\ result (handleTransaction Shop.store_down Shop.prepare_1000 [])
     = Fulfilled (error_response Shop.prepare_1000 (Num (-5))
                    "Internal prepare error").
Proof.
  assert (Ht : threw awaited
                 (trace (handleTransaction Shop.store_down
                           Shop.prepare_1000 [])) = true)
    by (vm_compute; reflexivity).
  destruct (never_faults Shop.store_down Shop.prepare_1000 [])
    as [resp [R H]].
  destruct (H Ht) as [_ E].
  split; [exact Ht | rewrite R, E; reflexivity].
Defined.



Lemma scenario_A_witness :
  validateSignString Shop.plain Shop.prepare_1000 false = true
  /\ result (handleTransaction Shop.plain Shop.prepare_1000 [])
     = Fulfilled {| Response.click_trans_id := Num 1;
                    Response.merchant_trans_id := "O1";
                    Response.merchant_prepare_id := Some (IdStr "P1");
                    Response.error := Num 0;
                    Response.error_note := "Success" |}.
Proof.
  assert (Hs : validateSignString Shop.plain Shop.prepare_1000 false = true)
    by (vm_compute; reflexivity).
  split; [exact Hs|].
  apply (scenario_A Shop.plain Shop.prepare_1000 [] ["checkOrder"]
           ["checkOrder"; "onPrepare"]);
    [reflexivity | reflexivity | reflexivity | reflexivity | exact Hs
    | reflexivity | reflexivity | reflexivity].
Defined.

Lemma zero_order_amount_witness :
  amount Shop.prepare_1000 = Num 1000
  /\ result (handleTransaction Shop.free_order Shop.prepare_1000 [])
     = Fulfilled {| Response.click_trans_id := Num 1;
                    Response.merchant_trans_id := "O1";
                    Response.merchant_prepare_id := Some (IdStr "P1");
                    Response.error := Num 0;
                    Response.error_note := "Success" |}.
Proof.
  assert (Hs : validateSignString Shop.free_order Shop.prepare_1000 false
               = true) by (vm_compute; reflexivity).
  destruct (zero_order_amount Shop.free_order Shop.prepare_1000 []
              ["checkOrder"]
              {| Order.exists_ := true; Order.amount := Some (Num 0) |}
              eq_refl Hs eq_refl eq_refl eq_refl) as [_ H].
  destruct (H (IdStr "P1") ["checkOrder"] ["checkOrder"; "onPrepare"]
              eq_refl eq_refl) as [R _].
  split; [reflexivity | exact R].
Defined.



(* ===================================================================== *)
(** ** Further properties of the handlers *)
(* ===================================================================== *)

Lemma append_assoc (a b c : string) :
  ((a ++ b) ++ c)%string = (a ++ b ++ c)%string.
Proof. induction a as [|x a IH]; simpl; [reflexivity|]. now rewrite IH. Qed.

Lemma append_empty_r (a : string) : (a ++ "")%string = a.
Proof. induction a as [|x a IH]; simpl; [reflexivity|]. now rewrite IH. Qed.

Lemma gt_zero (x : number) :
  gt x (Num 0) = true <-> exists n, x = Num n /\ 0 < n.
Proof.
  destruct x as [z|]; cbn.
  - rewrite Z.ltb_lt. split; [intros H; now exists z | intros [n [E H]]].
    now inversion E.
  - split; [discriminate | intros [n [E _]]; discriminate].
Qed.


Section Further.
Context {World : Type}.
Variable config : ClickConfig World.

Ltac enter_prepare Hact Hsig Hord Hex :=
  rewrite (handleTransaction_Prepare _ _ Hact); unfold_run;
  rewrite ?Hact, Hsig;
  change (strict_eq TransactionActions.Prepare TransactionActions.Prepare)
    with true;
  cbn [negb]; rewrite Hord; cbn [negb]; rewrite Hex; cbn [negb].


(** amount absent or equal *)
Lemma amount_passes (order : Order.t) (data : ClickRequestDTO) :
  Order.amount order = None \/ Order.amount order = Some (amount data) ->
  truthy (Order.amount order)
  && strict_neq (Order.amount order) (amount data) = false.
Proof.
  intros [H|H]; rewrite H; [reflexivity|].
  destruct (amount data) as [a|]; cbn; [|reflexivity].
  rewrite Z.eqb_refl. cbn. apply andb_false_r.
Qed.


(** X3. A Prepare request with a valid signature, an existing order whose
    amount is absent or equal to the payload's, no checkPayment or one
    that answers false, and an onPrepare that returns an id (a string or a
    number) is answered Success with that id; the world is the one
    onPrepare left and the calls are exactly the awaited ones, in order,
    without onFail. *)
Theorem prepare_succeeds (data : ClickRequestDTO) (w w1 w2 w3 : World)
    (order : Order.t) (pid : PrepareId) :
  action data = TransactionActions.Prepare ->
  validateSignString config data false = true ->
  checkOrder (validate config) (merchant_trans_id data) w
  = (Fulfilled order, w1) ->
  Order.exists_ order = true ->
  Order.amount order = None \/ Order.amount order = Some (amount data) ->
  match checkPayment (validate config) with
  | Some f => f (merchant_trans_id data) w1 = (Fulfilled false, w2)
  | None => w2 = w1
  end ->
  onPrepare (handle config) (click_trans_id data) (merchant_trans_id data)
    (amount data) w2 = (Fulfilled pid, w3) ->
  let r := handleTransaction config data w in
  result r
  = Fulfilled {| Response.click_trans_id := click_trans_id data;
                 Response.merchant_trans_id := merchant_trans_id data;
                 Response.merchant_prepare_id := Some pid;
                 Response.error := Num 0;
                 Response.error_note := "Success" |}
  /\ world r = w3
  /\ calls (trace r) = expected_calls config data.
Proof.
  intros Hact Hsig Hord Hex Ham Hpay Hprep. cbv zeta. unfold expected_calls.
  enter_prepare Hact Hsig Hord Hex.
  change (strict_eq TransactionActions.Prepare TransactionActions.Prepare)
    with true.
  rewrite (amount_passes _ _ Ham).
  destruct (checkPayment (validate config)) as [f|].
  - rewrite Hpay. cbn. rewrite Hprep. cbn. auto.
  - subst w2. rewrite Hprep. cbn. auto.
Qed.

(** X4. A Prepare request is answered Success (0) only if its signature
    verified and checkOrder and onPrepare were called and returned; the
    calls of such a run are exactly the expected ones, without onFail. *)
Theorem success_means_saved (data : ClickRequestDTO) (w : World)
    (resp : Response.t) :
  action data = TransactionActions.Prepare ->
  result (handleTransaction config data w) = Fulfilled resp ->
  Response.error resp = Num 0 ->
  validateSignString config data false = true
  /\ In (Invoke (CheckOrder (merchant_trans_id data)) Returned)
       (trace (handleTransaction config data w))
  /\ In (Invoke (OnPrepare (click_trans_id data) (merchant_trans_id data)
                   (amount data)) Returned)
       (trace (handleTransaction config data w))
  /\ calls (trace (handleTransaction config data w))
     = expected_calls config data.
Proof.
  intros Hact. unfold expected_calls.
  rewrite (handleTransaction_Prepare _ _ Hact). unfold_run. rewrite Hact.
  change (strict_eq TransactionActions.Prepare TransactionActions.Prepare)
    with true.
  split_run; cbn; intros Hr He; inversion Hr; subst resp; cbn in He;
    try discriminate He; repeat split; auto.
  all: apply negb_false_iff; assumption.
Qed.

(** X5. A Complete request is answered Success (0) only if its signature
    verified with the prepare id, parseInt of the error field is not
    greater than 0, and checkOrder and onSuccess were called and
    returned. *)
Theorem success_means_updated (data : ClickRequestDTO) (w : World)
    (resp : Response.t) :
  action data = TransactionActions.Complete ->
  result (handleTransaction config data w) = Fulfilled resp ->
  Response.error resp = Num 0 ->
  validateSignString config data true = true
  /\ gt (parseInt (error data)) (Num 0) = false
  /\ In (Invoke (CheckOrder (merchant_trans_id data)) Returned)
       (trace (handleTransaction config data w))
  /\ In (Invoke (OnSuccess (click_trans_id data) (merchant_trans_id data)
                   (merchant_prepare_id data)) Returned)
       (trace (handleTransaction config data w))
  /\ calls (trace (handleTransaction config data w))
     = expected_calls config data.
Proof.
  intros Hact. unfold expected_calls.
  rewrite (handleTransaction_Complete _ _ Hact). unfold_run. rewrite Hact.
  change (strict_eq TransactionActions.Complete TransactionActions.Prepare)
    with false.
  change (strict_eq TransactionActions.Complete TransactionActions.Complete)
    with true.
  split_run; cbn; intros Hr He; inversion Hr; subst resp; cbn in He;
    try discriminate He; repeat split; auto.
  all: try (apply negb_false_iff; assumption).
  all: match goal with
       | H : gt ?x (Num 0) = true |- _ =>
           rewrite He in H; discriminate H
       end.
Qed.




(** X8. Every response echoes the request's click_trans_id and
    merchant_trans_id, and carries a merchant_prepare_id exactly when the
    request's action is Prepare (0). *)
Theorem response_shape (data : ClickRequestDTO) (w : World)
    (resp : Response.t) :
  result (handleTransaction config data w) = Fulfilled resp ->
  Response.click_trans_id resp = click_trans_id data
  /\ Response.merchant_trans_id resp = merchant_trans_id data
  /\ (Response.merchant_prepare_id resp <> None
      <-> action data = TransactionActions.Prepare).
Proof.
  unfold_run.
  unfold TransactionActions.Prepare, TransactionActions.Complete.
  split_run; cbn; intros Hr; inversion Hr; subst resp; cbn;
    (split; [reflexivity | split; [reflexivity|]]).
  all: repeat match goal with
         | H : strict_eq _ (Num _) = true |- _ => apply strict_eq_Num in H
         | H : strict_eq _ (Num _) = false |- _ =>
             apply strict_eq_Num_false in H
         end.
  all: split; intros; congruence.
Qed.

(** X9. The error code of a response is an integer between -5 and 0, or,
    for a Complete request only, the positive value parseInt reads in the
    error field; it is never NaN, TransactionNotFound (-6) or
    TransactionCanceled (-7). *)
Theorem error_codes (data : ClickRequestDTO) (w : World)
    (resp : Response.t) :
  result (handleTransaction config data w) = Fulfilled resp ->
  exists z,
    Response.error resp = Num z
    /\ (-5 <= z <= 0
        \/ (0 < z /\ action data = TransactionActions.Complete
            /\ parseInt (error data) = Num z)).
Proof.
  unfold_run.
  unfold TransactionActions.Prepare, TransactionActions.Complete.
  split_run; cbn; intros Hr; inversion Hr; subst resp; cbn.
  all: try (eexists; split; [reflexivity | left; lia]).
  all: match goal with
       | H : gt ?x (Num 0) = true |- _ =>
           apply gt_zero in H; destruct H as [n [E Hn]]; exists n;
           split; [exact E | right; split; [exact Hn | split; [|exact E]]]
       end.
  all: match goal with
       | H : strict_eq _ (Num 1) = true |- _ =>
           apply strict_eq_Num in H; exact H
       end.
Qed.



(** X12. Without an onFail, a Prepare or Complete request whose signature
    does not verify is answered SignFailed with no call, no console line
    and the world unchanged. *)
Theorem forged_request_changes_nothing (data : ClickRequestDTO) (w : World)
    (completes : bool) :
  action data
  = (if completes then TransactionActions.Complete
     else TransactionActions.Prepare) ->
  validateSignString config data completes = false ->
  onFail (handle config) = None ->
  handleTransaction config data w
  = (Fulfilled (error_response data ClickError.SignFailed
                  "Invalid sign_string"), w, []).
Proof.
  intros Hact Hsig Hf. unfold error_response.
  destruct completes;
    [rewrite (handleTransaction_Complete _ _ Hact)
    |rewrite (handleTransaction_Prepare _ _ Hact)];
    unfold_run; rewrite Hsig, Hf; reflexivity.
Qed.

(** X13. A sign_string is accepted only if it is 32 characters of
    [0-9a-f]: a digest sent in upper case, or of another length, is
    rejected. *)
Theorem accepted_signature_form (data : ClickRequestDTO) (b : bool) :
  validateSignString config data b = true ->
  lower_hex (sign_string data) = true
  /\ String.length (sign_string data) = 32%nat.
Proof.
  intros H. apply validateSignString_iff in H. rewrite H.
  apply md5_hex_lowercase.
Qed.

(** *** What the signature binds *)

(** X14. With an empty merchant_prepare_id a request verifies for
    Complete exactly when it verifies for Prepare: the prepare id adds
    nothing to the digested text. *)
Theorem empty_prepare_id (data : ClickRequestDTO) :
  merchant_prepare_id data = "" ->
  validateSignString config data true = validateSignString config data false.
Proof.
  intros H. rewrite !validateSignString_digest. unfold code_sign_text.
  rewrite H. cbn [List.app String.concat append]. now rewrite append_empty_r.
Qed.

(** X15. The Complete signature does not bind where sign_time ends and
    merchant_prepare_id begins: moving characters from the end of one to
    the start of the other keeps the result of the verification. *)
Theorem prepare_id_boundary (data : ClickRequestDTO) (a b c : string) :
  validateSignString config
    (with_time_and_prepare_id data (a ++ b)%string c) true
  = validateSignString config
      (with_time_and_prepare_id data a (b ++ c)%string) true.
Proof.
  rewrite !validateSignString_digest. unfold code_sign_text.
  cbn [List.app String.concat append with_time_and_prepare_id click_trans_id
         service_id merchant_trans_id merchant_prepare_id amount action
         sign_time sign_string].
  now rewrite append_assoc.
Qed.

(** X16. The signature does not bind where merchant_trans_id ends and
    amount begins: when the decimal text of n is the text of m followed by
    the text of k, order s with amount n verifies exactly when order
    s ++ text(m) with amount k does. *)
Theorem order_amount_boundary (data : ClickRequestDTO) (s : string)
    (n m k : Z) (b : bool) :
  number_toString (Num n)
  = (number_toString (Num m) ++ number_toString (Num k))%string ->
  validateSignString config (with_order_and_amount data s (Num n)) b
  = validateSignString config
      (with_order_and_amount data (s ++ number_toString (Num m))%string
         (Num k)) b.
Proof.
  intros H. rewrite !validateSignString_digest. unfold code_sign_text.
  cbn [List.app String.concat append with_order_and_amount click_trans_id
         service_id merchant_trans_id merchant_prepare_id amount action
         sign_time sign_string].
  now rewrite H, !append_assoc.
Qed.

End Further.

(* ===================================================================== *)
(** ** Concrete runs of the further properties *)
(* ===================================================================== *)



Lemma prepare_succeeds_witness :
  validateSignString Cases.unpaid Shop.prepare_1000 false = true
  /\ result (handleTransaction Cases.unpaid Shop.prepare_1000 [])
     = Fulfilled {| Response.click_trans_id := Num 1;
                    Response.merchant_trans_id := "O1";
                    Response.merchant_prepare_id := Some (IdNum (Num 42));
                    Response.error := Num 0;
                    Response.error_note := "Success" |}
  /\ world (handleTransaction Cases.unpaid Shop.prepare_1000 [])
     = ["checkOrder"; "checkPayment"; "onPrepare"]
  /\ calls (trace (handleTransaction Cases.unpaid Shop.prepare_1000 []))
     = [CheckOrder "O1"; CheckPayment "O1"; OnPrepare (Num 1) "O1" (Num 1000)].
Proof.
  assert (Hs : validateSignString Cases.unpaid Shop.prepare_1000 false
               = true) by (vm_compute; reflexivity).
  split; [exact Hs|].
  exact (prepare_succeeds Cases.unpaid Shop.prepare_1000 [] ["checkOrder"]
           ["checkOrder"; "checkPayment"]
           ["checkOrder"; "checkPayment"; "onPrepare"]
           {| Order.exists_ := true; Order.amount := None |}
           (IdNum (Num 42))
           eq_refl Hs eq_refl eq_refl (or_introl eq_refl) eq_refl eq_refl).
Defined.

Lemma success_means_saved_witness :
  result (handleTransaction Shop.plain Shop.prepare_1000 [])
  = Fulfilled {| Response.click_trans_id := Num 1;
                 Response.merchant_trans_id := "O1";
                 Response.merchant_prepare_id := Some (IdStr "P1");
                 Response.error := Num 0;
                 Response.error_note := "Success" |}
  /\ validateSignString Shop.plain Shop.prepare_1000 false = true
  /\ calls (trace (handleTransaction Shop.plain Shop.prepare_1000 []))
     = [CheckOrder "O1"; OnPrepare (Num 1) "O1" (Num 1000)].
Proof.
  split; [vm_compute; reflexivity|].
  destruct (success_means_saved Shop.plain Shop.prepare_1000 []
              {| Response.click_trans_id := Num 1;
                 Response.merchant_trans_id := "O1";
                 Response.merchant_prepare_id := Some (IdStr "P1");
                 Response.error := Num 0;
                 Response.error_note := "Success" |}
              eq_refl ltac:(vm_compute; reflexivity) eq_refl)
    as [Hs [_ [_ Hc]]].
  split; [exact Hs | exact Hc].
Defined.

Lemma success_means_updated_witness :
  result (handleTransaction Shop.plain (Shop.complete_with "0") [])
  = Fulfilled {| Response.click_trans_id := Num 1;
                 Response.merchant_trans_id := "O1";
                 Response.merchant_prepare_id := None;
                 Response.error := Num 0;
                 Response.error_note := "Success" |}
  /\ validateSignString Shop.plain (Shop.complete_with "0") true = true
  /\ gt (parseInt (error (Shop.complete_with "0"))) (Num 0) = false
  /\ calls (trace (handleTransaction Shop.plain (Shop.complete_with "0") []))
     = [CheckOrder "O1"; OnSuccess (Num 1) "O1" "P1"].
Proof.
  destruct (success_means_updated Shop.plain (Shop.complete_with "0") []
              {| Response.click_trans_id := Num 1;
                 Response.merchant_trans_id := "O1";
                 Response.merchant_prepare_id := None;
                 Response.error := Num 0;
                 Response.error_note := "Success" |}
              eq_refl ltac:(vm_compute; reflexivity) eq_refl)
    as [Hs [Hg [_ [_ Hc]]]].
  split; [vm_compute; reflexivity|].
  split; [exact Hs | split; [exact Hg | exact Hc]].
Defined.


Lemma response_shape_witness :
  result (handleTransaction Shop.plain Shop.prepare_2000 [])
  = Fulfilled (error_response Shop.prepare_2000 (Num (-2)) "Invalid amount")
  /\ Response.click_trans_id
       (error_response Shop.prepare_2000 (Num (-2)) "Invalid amount") = Num 1
  /\ Response.merchant_trans_id
       (error_response Shop.prepare_2000 (Num (-2)) "Invalid amount") = "O1"
  /\ (Response.merchant_prepare_id
        (error_response Shop.prepare_2000 (Num (-2)) "Invalid amount")
      <> None
      <-> action Shop.prepare_2000 = TransactionActions.Prepare).
Proof.
  assert (Hr : result (handleTransaction Shop.plain Shop.prepare_2000 [])
               = Fulfilled (error_response Shop.prepare_2000 (Num (-2))
                              "Invalid amount"))
    by (vm_compute; reflexivity).
  split; [exact Hr|].
  exact (response_shape Shop.plain Shop.prepare_2000 [] _ Hr).
Defined.

Lemma error_codes_witness :
  result (handleTransaction Shop.plain (Shop.complete_with "9") [])
  = Fulfilled (error_response (Shop.complete_with "9") (Num 9) "Click error")
  /\ exists z,
       Response.error
         (error_response (Shop.complete_with "9") (Num 9) "Click error")
       = Num z
       /\ (-5 <= z <= 0
           \/ (0 < z
               /\ action (Shop.complete_with "9")
                  = TransactionActions.Complete
               /\ parseInt (error (Shop.complete_with "9")) = Num z)).
Proof.
  assert (Hr : result
                 (handleTransaction Shop.plain (Shop.complete_with "9") [])
               = Fulfilled (error_response (Shop.complete_with "9") (Num 9)
                              "Click error"))
    by (vm_compute; reflexivity).
  split; [exact Hr|].
  exact (error_codes Shop.plain (Shop.complete_with "9") [] _ Hr).
Defined.

Lemma forged_request_changes_nothing_witness :
  validateSignString Shop.plain Shop.prepare_tampered false = false
  /\ handleTransaction Shop.plain Shop.prepare_tampered ["ledger"]
     = (Fulfilled (error_response Shop.prepare_tampered ClickError.SignFailed
                     "Invalid sign_string"), ["ledger"], []).
Proof.
  assert (Hs : validateSignString Shop.plain Shop.prepare_tampered false
               = false) by (vm_compute; reflexivity).
  split; [exact Hs|].
  exact (forged_request_changes_nothing Shop.plain Shop.prepare_tampered
           ["ledger"] false eq_refl Hs eq_refl).
Defined.

Lemma accepted_signature_form_witness :
  validateSignString Shop.plain Shop.prepare_1000 false = true
  /\ lower_hex (sign_string Shop.prepare_1000) = true
  /\ String.length (sign_string Shop.prepare_1000) = 32%nat.
Proof.
  assert (Hs : validateSignString Shop.plain Shop.prepare_1000 false = true)
    by (vm_compute; reflexivity).
  split; [exact Hs|].
  exact (accepted_signature_form Shop.plain Shop.prepare_1000 false Hs).
Defined.

Lemma empty_prepare_id_witness :
  merchant_prepare_id Cases.complete_bare = ""
  /\ validateSignString Shop.plain Cases.complete_bare false = true
  /\ validateSignString Shop.plain Cases.complete_bare true = true.
Proof.
  assert (Hs : validateSignString Shop.plain Cases.complete_bare false
               = true) by (vm_compute; reflexivity).
  split; [reflexivity | split; [exact Hs|]].
  rewrite (empty_prepare_id Shop.plain Cases.complete_bare eq_refl).
  exact Hs.
Defined.

Lemma order_amount_boundary_witness :
  validateSignString Shop.plain
    (with_order_and_amount Cases.prepare_12 "O1" (Num 12)) false = true
  /\ validateSignString Shop.plain
       (with_order_and_amount Cases.prepare_12 "O11" (Num 2)) false = true.
Proof.
  assert (Hs : validateSignString Shop.plain
                 (with_order_and_amount Cases.prepare_12 "O1" (Num 12)) false
               = true) by (vm_compute; reflexivity).
  split; [exact Hs|].
  rewrite <- Hs.
  symmetry.
  exact (order_amount_boundary Shop.plain Cases.prepare_12 "O1" 12 1 2 false
           eq_refl).
Defined.


(* ===================================================================== *)
(** ** An [onFail] that throws at the call *)
(* ===================================================================== *)

Section RaisingFacts.
Context {World : Type}.
Variable config : ClickConfig World.

(** the handlers over the formatter are the handlers, when the formatter
    is [createErrorResponse] *)
Lemma handleTransaction_by_formatter (data : ClickRequestDTO) :
  handleTransaction_by config (createErrorResponse config) data
  = handleTransaction config data.
Proof. reflexivity. Qed.

Lemma createErrorResponse_sync_async (e : number) (note : string)
    (data : ClickRequestDTO) (w : World) :
  createErrorResponse_sync
    (option_map returns_promise (onFail (handle config))) e note data w
  = createErrorResponse config e note data w.
Proof.
  unfold createErrorResponse_sync, createErrorResponse, detached_sync,
    detached, returns_promise, bind, ret.
  destruct (onFail (handle config)) as [f|]; cbn; [|reflexivity].
  destruct (f _ _ _ _ w) as [[u|x] w1]; reflexivity.
Qed.

(** with an [onFail] that returns its promise, absent or [async], the two
    models run alike: same answer, same world, same trace *)
Lemma handleTransaction_sync_async (data : ClickRequestDTO) (w : World) :
  handleTransaction_sync config
    (option_map returns_promise (onFail (handle config))) data w
  = handleTransaction config data w.
Proof.
  unfold handleTransaction_sync, handleTransaction_by, handleTransaction,
    prepare_by, complete_by, prepare, complete, try_catch, bind,
    console_error.
  repeat (cbv beta iota;
    match goal with
    | |- context [createErrorResponse_sync _ ?e ?n ?d ?w] =>
        rewrite (createErrorResponse_sync_async e n d w)
    | |- context [if ?b then _ else _] => destruct b
    | |- context [match checkPayment ?v with _ => _ end] =>
        destruct (checkPayment v)
    | |- context [match await ?c ?f ?w with _ => _ end] =>
        destruct (await c f w) as [[[?|?] ?] ?]
    | |- context [match createErrorResponse ?c ?e ?n ?d ?w with _ => _ end] =>
        destruct (createErrorResponse c e n d w) as [[[?|?] ?] ?]
    end); reflexivity.
Qed.

End RaisingFacts.

(** C5. With an onFail that throws at the call, handleTransaction does
    propagate a fault: its promise is rejected with what onFail threw,
    where the claim has a response. For action 5 the throw leaves the
    default branch, which has no try. For a Prepare request whose
    checkOrder throws, the catch block logs that fault and calls
    createErrorResponse, whose onFail throws outside any try, so no -5
    response is returned. For a Complete request with a bad signature the
    throw inside try is caught, and onFail is called and throws again in
    the catch block. *)
Theorem onFail_throw_escapes :
  handleTransaction_sync Shop.plain (Some onFail_throws) Shop.action_5 []
  = (Rejected (Error "notify failed"), ["onFail"],
     [Invoke (OnFail (Num 1) "O1" (Num (-3)) "Invalid action")
        (Threw (Error "notify failed"))])
  /\ handleTransaction_sync Shop.store_down (Some onFail_throws)
       Shop.prepare_1000 []
     = (Rejected (Error "notify failed"), ["checkOrder"; "onFail"],
        [Invoke (CheckOrder "O1") (Threw (Error "store down"));
         ConsoleError "Click prepare error:" (Error "store down");
         Invoke (OnFail (Num 1) "O1" (Num (-5)) "Internal prepare error")
           (Threw (Error "notify failed"))])
  /\ handleTransaction_sync Shop.plain (Some onFail_throws)
       Shop.complete_tampered []
     = (Rejected (Error "notify failed"), ["onFail"; "onFail"],
        [Invoke (OnFail (Num 1) "O1" (Num (-1)) "Invalid sign_string")
           (Threw (Error "notify failed"));
         ConsoleError "Click complete error:" (Error "notify failed");
         Invoke (OnFail (Num 1) "O1" (Num (-5)) "Internal complete error")
           (Threw (Error "notify failed"))]).
Proof. repeat split; vm_compute; reflexivity. Qed.
